(** * Waitlist backend (main.py): request handlers over a document store

    A shallow embedding of the FastAPI handlers of [main.py]:
    [test_database], [create_waitlist_entry], [get_waitlist_count] and
    [get_recent_waitlist] with its local function [mask].

    Python values are modelled as follows.
    - [str] is a list of Unicode code points, so that [len], indexing and
      slicing count characters exactly as Python does.
    - A document is a dict with string keys: a [gmap] from [str] to the
      values a stored record can hold.
    - A computation that may raise is a value of [result], which tells an
      instance of [Exception] from an exception that is none, such as
      [KeyboardInterrupt]; what a route handler hands back to the framework
      is an [outcome], which also has a case for the framework's
      [HTTPException].
    - The module [database] and the schema [Waitlist] are imported by
      [main.py]; the handlers take them as parameters ([Adapter]). *)

From stdpp Require Import gmap strings list fin_maps.

Local Open Scope Z_scope.

(** ** Strings *)

Definition char := N.
Definition str := list char.

(** An ASCII literal of the source, as code points. *)
Fixpoint lit (s : string) : str :=
  match s with
  | EmptyString => []
  | String a s' => Ascii.N_of_ascii a :: lit s'
  end.
Arguments lit : simpl never.

Definition at_sign : char := 64%N.   (* "@" *)
Definition star : char := 42%N.      (* "*" *)
Definition check_mark : char := 9989%N.     (* U+2705 *)
Definition cross_mark : char := 10060%N.    (* U+274C *)
Definition warning_sign : str := [9888%N; 65039%N].  (* U+26A0 U+FE0F *)

(** [s.split(sep, 1)] for a one-character separator: the list of the part
    before the first [sep] and the rest after it, or [[s]] when [sep] does
    not occur. *)
Fixpoint split1 (sep : char) (s : str) : list str :=
  match s with
  | [] => [[]]
  | c :: s' =>
      if decide (c = sep) then [[]; s']
      else match split1 sep s' with
           | name :: rest => (c :: name) :: rest
           | [] => [[c]]
           end
  end.

(** ** Values, exceptions and results *)

(** The values of a stored record's fields that are covered here: null,
    strings, integers and timestamps.  Booleans, floats, lists and
    embedded documents are left out. *)
Inductive value :=
  | VNone
  | VStr (s : str)
  | VInt (z : Z)
  | VDatetime (t : Z).

#[global] Instance value_eq_dec : EqDecision value.
Proof. solve_decision. Defined.

(** Truth value of an object, as tested by [not x] and [if x]. *)
Definition truthy (v : value) : bool :=
  match v with
  | VNone => false
  | VStr s => negb (bool_decide (s = []))
  | VInt z => negb (z =? 0)
  | VDatetime _ => true
  end.

(** An exception object: its class and the text [str(e)]. *)
Record exn := Exn { exn_class : string; exn_str : str }.

(** A computation returns a value or raises.  [Raise e] raises an instance
    of [Exception], which [except Exception] catches; [RaiseBase e] raises
    an exception that is not one ([KeyboardInterrupt], [SystemExit],
    [GeneratorExit] and other direct subclasses of [BaseException]), which
    [except Exception] lets through. *)
Inductive result (A : Type) :=
  | Return (a : A)
  | Raise (e : exn)
  | RaiseBase (e : exn).
Arguments Return {A} a.
Arguments Raise {A} e.
Arguments RaiseBase {A} e.

#[global] Instance result_ret : MRet result := @Return.
#[global] Instance result_bind : MBind result := λ A B f m,
  match m with
  | Return a => f a
  | Raise e => Raise e
  | RaiseBase e => RaiseBase e
  end.

(** What a route handler gives back to the framework: a returned body
    (sent with status 200), an [HTTPException] with its status code and
    detail, or any other exception, which the handler did not convert. *)
Inductive outcome (A : Type) :=
  | Returns (body : A)
  | RaisesHTTP (status_code : Z) (detail : str)
  | Raises (e : exn).
Arguments Returns {A} body.
Arguments RaisesHTTP {A} status_code detail.
Arguments Raises {A} e.

(** The status of the response the framework sends: 200 for a returned
    body, the exception's own code for an [HTTPException], and 500 for an
    exception nobody handled. *)
Definition http_status {A} (o : outcome A) : Z :=
  match o with
  | Returns _ => 200
  | RaisesHTTP status_code _ => status_code
  | Raises _ => 500
  end.

(** [try: body  except Exception as e: raise HTTPException(status_code=500,
    detail=str(e))]: an exception that is not an instance of [Exception]
    passes the [except] clause and leaves the handler as it is. *)
Definition except_500 {A} (body : result A) : outcome A :=
  match body with
  | Return a => Returns a
  | Raise e => RaisesHTTP 500 (exn_str e)
  | RaiseBase e => Raises e
  end.

Definition IndexError_string : exn :=
  Exn "IndexError" (lit "string index out of range").
Definition TypeError_not_iterable (ty : string) : exn :=
  Exn "TypeError" (lit "argument of type '" ++ lit ty ++ lit "' is not iterable").
Definition ValueError_unpack (got : string) : exn :=
  Exn "ValueError" (lit "not enough values to unpack (expected 2, got " ++ lit got ++ lit ")").
Definition ValueError_unpack_many : exn :=
  Exn "ValueError" (lit "too many values to unpack (expected 2)").

(** [s[0]] and [s[-1]] *)
Definition index_first (s : str) : result char :=
  match s with
  | c :: _ => Return c
  | [] => Raise IndexError_string
  end.
Definition index_last (s : str) : result char :=
  match last s with
  | Some c => Return c
  | None => Raise IndexError_string
  end.

(** ** The local function [mask] of [get_recent_waitlist] *)

Definition hidden : str := lit "hidden".

Definition mask (email : value) : result str :=
  if negb (truthy email) then Return hidden
  else
    match email with
    | VStr s =>
        if negb (bool_decide (at_sign ∈ s)) then Return hidden
        else
          match split1 at_sign s with
          | [name; domain] =>
              masked ← (if (length name <=? 2)%nat
                        then c ← index_first name; Return [c; star]
                        else c ← index_first name;
                             d ← index_last name;
                             Return ([c] ++ replicate (length name - 2)%nat star ++ [d]));
              Return (masked ++ [at_sign] ++ domain)
          | [] => Raise (ValueError_unpack "0")
          | [_] => Raise (ValueError_unpack "1")
          | _ => Raise ValueError_unpack_many
          end
    | VInt _ => Raise (TypeError_not_iterable "int")
    | VDatetime _ => Raise (TypeError_not_iterable "datetime.datetime")
    | VNone => Return hidden
    end.


(** ** Documents and response bodies *)

(** A document: a dict from field names to values.  The empty dict [∅] is
    the empty filter [{}]. *)
Abbreviation doc := (gmap str value).

(** [d.get(key, default)] *)
Definition dict_get (d : doc) (key : str) (dflt : value) : value :=
  default dflt (d !! key).

(** One element of the list [sanitized]. *)
Record item := Item {
  item_email : str;
  item_name : value;
  item_created_at : value
}.

(** The element the comprehension builds for [doc]: the three dict entries
    are evaluated in the order written, and only [mask] can raise. *)
Definition sanitize (d : doc) : result item :=
  e ← mask (dict_get d (lit "email") VNone);
  Return (Item e (dict_get d (lit "name") (VStr (lit "Friend")))
                 (dict_get d (lit "created_at") VNone)).

Record created := Created { id : str; message : str }.
Record counted := Counted { count : Z }.
Record recent := Recent { items : list item }.

(** The dict [response] of [test_database]. *)
Record status := Status {
  backend : str;
  database : str;
  database_url : value;
  database_name : value;
  connection_status : str;
  collections : list str
}.

Definition set_database (x : str) (r : status) : status :=
  Status (backend r) x (database_url r) (database_name r)
         (connection_status r) (collections r).
Definition set_database_url (x : value) (r : status) : status :=
  Status (backend r) (database r) x (database_name r)
         (connection_status r) (collections r).
Definition set_database_name (x : value) (r : status) : status :=
  Status (backend r) (database r) (database_url r) x
         (connection_status r) (collections r).
Definition set_connection_status (x : str) (r : status) : status :=
  Status (backend r) (database r) (database_url r) (database_name r)
         x (collections r).
Definition set_collections (x : list str) (r : status) : status :=
  Status (backend r) (database r) (database_url r) (database_name r)
         (connection_status r) x.

(** ** What [main.py] imports *)

Module schemas.
(** Modelled from the spec: the schema [Waitlist] of [schemas.py], a file
    that is not among the sources.  The spec gives the entity the
    attributes [email] (string, required) and [name] (string, optional). *)
Record Waitlist := { email : str; name : option str }.
End schemas.

(** The result of looking up an attribute of an object: the attribute is
    absent ([AttributeError], which [hasattr] turns into [False]), it has a
    value, or its lookup raises another exception, an instance of
    [Exception] or not. *)
Inductive attr :=
  | AttrAbsent
  | AttrValue (v : value)
  | AttrRaises (e : exn)
  | AttrRaisesBase (e : exn).

(** The handle [db] when it is not [None], over store states [S]:
    [db.name], [db.list_collection_names()] and
    [db[collection].count_documents(filter)]. *)
Record Database (S : Type) := {
  db_name : attr;
  list_collection_names : S → result (list str);
  count_documents : str → doc → S → result Z
}.
Arguments db_name {S} _.
Arguments list_collection_names {S} _ _.
Arguments count_documents {S} _ _ _ _.

(** The names imported from [database]: the handle [db] (or [None]),
    [create_document(collection, data)], which may change the store, and
    [get_documents(collection, filter, limit)]. *)
Record Adapter (S : Type) := {
  db : option (Database S);
  create_document : str → schemas.Waitlist → S → result str * S;
  get_documents : str → doc → Z → S → result (list doc)
}.
Arguments db {S} _.
Arguments create_document {S} _ _ _ _.
Arguments get_documents {S} _ _ _ _ _.

(** ** The handlers *)

Section handlers.
Context {S : Type} (A : Adapter S).

(** [os.getenv]: the process environment. *)
Variable environ : gmap str str.

Definition getenv (key : str) : value :=
  match environ !! key with
  | Some v => VStr v
  | None => VNone
  end.

Definition initial_status : status :=
  Status ([check_mark] ++ lit " Running")
         ([cross_mark] ++ lit " Not Available")
         VNone VNone (lit "Not Connected") [].

(** The inner [try] of [test_database], with its [except Exception]: how
    the statement ends and the response as it then stands. *)
Definition test_database_list (h : Database S) (s : S) (r : status)
  : result () * status :=
  match list_collection_names h s with
  | Return cs =>
      (Return (),
       set_database ([check_mark] ++ lit " Connected & Working")
         (set_collections (take 10 cs) r))
  | Raise e =>
      (Return (),
       set_database (warning_sign ++ lit "  Connected but Error: "
                       ++ take 50 (exn_str e)) r)
  | RaiseBase e => (RaiseBase e, r)
  end.

(** The body of the outer [try] of [test_database]: the response as it
    stands when the body ends, normally or by raising. *)
Definition test_database_try (s : S) (r : status) : result () * status :=
  match db A with
  | Some h =>
      let r := set_database ([check_mark] ++ lit " Available") r in
      let r := set_database_url (VStr ([check_mark] ++ lit " Configured")) r in
      match db_name h with
      | AttrRaises e => (Raise e, r)
      | AttrRaisesBase e => (RaiseBase e, r)
      | AttrValue v =>
          let r := set_database_name v r in
          let r := set_connection_status (lit "Connected") r in
          test_database_list h s r
      | AttrAbsent =>
          let r := set_database_name (VStr ([check_mark] ++ lit " Connected")) r in
          let r := set_connection_status (lit "Connected") r in
          test_database_list h s r
      end
  | None =>
      (Return (),
       set_database (warning_sign ++ lit "  Available but not initialized") r)
  end.

Definition env_status (key : str) : value :=
  if truthy (getenv key) then VStr ([check_mark] ++ lit " Set")
  else VStr ([cross_mark] ++ lit " Not Set").

(** The statements after the outer [try]: the check of the environment
    variables and the [return]. *)
Definition test_database_env (r : status) : outcome status :=
  let r := set_database_url (env_status (lit "DATABASE_URL")) r in
  let r := set_database_name (env_status (lit "DATABASE_NAME")) r in
  Returns r.

Definition test_database (s : S) : outcome status :=
  let '(res, r) := test_database_try s initial_status in
  match res with
  | Return _ => test_database_env r
  | Raise e =>
      test_database_env
        (set_database ([cross_mark] ++ lit " Error: " ++ take 50 (exn_str e)) r)
  | RaiseBase e => Raises e
  end.

Definition confirmation : str := lit "Thanks for joining the waitlist!".

(** The body of the [try] of [create_waitlist_entry]. *)
Definition create_waitlist_entry_try (payload : schemas.Waitlist) (s : S)
  : result created * S :=
  let '(res, s') := create_document A (lit "waitlist") payload s in
  (new_id ← res; Return (Created new_id confirmation), s').

Definition create_waitlist_entry (payload : schemas.Waitlist) (s : S)
  : outcome created * S :=
  let '(res, s') := create_waitlist_entry_try payload s in
  (except_500 res, s').

Definition database_not_available : exn :=
  Exn "Exception" (lit "Database not available").

(** The body of the [try] of [get_waitlist_count]. *)
Definition get_waitlist_count_try (s : S) : result counted :=
  match db A with
  | None => Raise database_not_available
  | Some h =>
      n ← count_documents h (lit "waitlist") ∅ s;
      Return (Counted n)
  end.

Definition get_waitlist_count (s : S) : outcome counted :=
  except_500 (get_waitlist_count_try s).

(** The body of the [try] of [get_recent_waitlist]. *)
Definition get_recent_waitlist_try (limit : Z) (s : S) : result recent :=
  docs ← get_documents A (lit "waitlist") ∅ limit s;
  sanitized ← mapM sanitize docs;
  Return (Recent sanitized).

(** [limit] is the query parameter, [None] when the request has none:
    the signature gives it the default 5. *)
Definition get_recent_waitlist (limit : option Z) (s : S) : outcome recent :=
  let limit := default 5 limit in
  except_500 (get_recent_waitlist_try limit s).

End handlers.

(** ** The store adapter, from the spec *)

Module memstore.

(** Modelled from the spec: the state of the document store behind
    [database.py], a file that is not among the sources.  The store owns
    the collections; each holds its documents in the store's retrieval
    order.  [next_id] and [now] are what the store draws identities and
    timestamps from. *)
Record Store := {
  colls : gmap str (list doc);
  next_id : N;
  now : Z
}.

Definition documents (collection : str) (st : Store) : list doc :=
  default [] (colls st !! collection).

(** Modelled from the spec: the identity the store assigns on insertion,
    an opaque id string; here the 24 hexadecimal digits of a counter. *)
Definition hex_digit (n : N) : char :=
  (if n <? 10 then 48 + n else 87 + n)%N.
Definition oid (n : N) : str :=
  map (λ i : nat, hex_digit ((n / 16 ^ N.of_nat (23 - i)) `mod` 16)%N) (seq 0 24).

(** Modelled from the spec: the record stored for a validated payload,
    with [name] defaulting to "Friend" and [created_at] assigned by the
    store. *)
Definition record_of (payload : schemas.Waitlist) (oid : str) (t : Z) : doc :=
  <[lit "_id" := VStr oid]>
    (<[lit "email" := VStr (schemas.email payload)]>
       (<[lit "name" := VStr (default (lit "Friend") (schemas.name payload))]>
          (<[lit "created_at" := VDatetime t]> ∅))).

Definition unavailable : exn := Exn "Exception" (lit "Database not available").

(** A document matches a filter when it has every entry of the filter;
    the empty filter matches every document. *)
Definition matches (flt d : doc) : Prop :=
  map_Forall (λ k v, d !! k = Some v) flt.
#[global] Instance matches_dec flt d : Decision (matches flt d).
Proof. unfold matches. apply _. Defined.

(** Modelled from the spec: [createDocument(collection, record) -> id],
    which inserts the record and returns the id the store assigned, and
    throws when the store is not available. *)
Definition create_document (connected : bool) (collection : str)
    (payload : schemas.Waitlist) (st : Store) : result str * Store :=
  if connected then
    let new_id := oid (next_id st) in
    let d := record_of payload new_id (now st) in
    (Return new_id,
     {| colls := <[collection := documents collection st ++ [d]]> (colls st);
        next_id := N.succ (next_id st);
        now := now st + 1 |})
  else (Raise unavailable, st).

(** Modelled from the spec: [getDocuments(collection, filter, limit)],
    which fetches up to [limit] documents matching the filter, in the
    store's retrieval order. *)
Definition get_documents (connected : bool) (collection : str) (flt : doc)
    (limit : Z) (st : Store) : result (list doc) :=
  if connected then
    Return (take (Z.to_nat limit) (filter (matches flt) (documents collection st)))
  else Raise unavailable.

(** Modelled from the spec: the store client behind the handle, with
    [count(collection, filter) -> integer] and [listCollectionNames()]. *)
Definition handle (name : str) : Database Store := {|
  db_name := AttrValue (VStr name);
  list_collection_names := λ st, Return (map fst (map_to_list (colls st)));
  count_documents := λ collection flt st,
    Return (Z.of_nat (length (filter (matches flt) (documents collection st))))
|}.

(** The adapter: [db] is the handle when the store is configured, under
    the database name [name], and [None] otherwise. *)
Definition adapter (name : option str) : Adapter Store :=
  Build_Adapter Store (handle <$> name)
    (create_document (bool_decide (is_Some name)))
    (get_documents (bool_decide (is_Some name))).

End memstore.

(** ** Sample data *)

Module samples.
Import schemas.

Definition alice : Waitlist :=
  {| email := lit "alice@example.com"; name := Some (lit "Alice") |}.
Definition al : Waitlist :=
  {| email := lit "ab@example.com"; name := Some (lit "Al") |}.
Definition anon : Waitlist :=
  {| email := lit "a@x.com"; name := None |}.
Definition bob : Waitlist :=
  {| email := lit "bob@a.org"; name := Some (lit "Bob") |}.
Definition carol : Waitlist :=
  {| email := lit "carol@b.org"; name := Some (lit "Carol") |}.
Definition nobody : Waitlist :=
  {| email := lit "@x.com"; name := None |}.

Definition live : Adapter memstore.Store := memstore.adapter (Some (lit "app")).
Definition unset : Adapter memstore.Store := memstore.adapter None.

Definition empty_store : memstore.Store :=
  {| memstore.colls := ∅; memstore.next_id := 0; memstore.now := 1700000000 |}.

(** The store after a sequence of [POST /waitlist] requests. *)
Definition posted (ps : list Waitlist) (st : memstore.Store) : memstore.Store :=
  foldl (λ st p, (create_waitlist_entry live p st).2) st ps.

Definition five : memstore.Store :=
  posted [alice; al; anon; bob; carol] empty_store.
Definition with_nobody : memstore.Store :=
  posted [alice; nobody; bob] empty_store.

(** A handle whose [list_collection_names] and [count_documents] raise
    a long error, over a store without state. *)
Definition timeout : exn :=
  Exn "ServerSelectionTimeoutError"
      (lit "localhost:27017: [Errno 111] Connection refused, Timeout: 30s, Topology Description: unknown").
Definition down_handle : Database () := {|
  db_name := AttrValue (VStr (lit "app"));
  list_collection_names := λ _, Raise timeout;
  count_documents := λ _ _ _, Raise timeout
|}.
Definition down : Adapter () :=
  Build_Adapter () (Some down_handle)
    (λ _ _ s, (Raise timeout, s)) (λ _ _ _ _, Raise timeout).

(** Records as another writer may have left them in the collection: one
    without a name, one without an email, one whose email has no "@". *)
Definition legacy : memstore.Store :=
  {| memstore.colls :=
       {[ lit "waitlist" :=
            [ {[ lit "email" := VStr (lit "a@x.com") ]};
              {[ lit "name" := VStr (lit "Nomail") ]};
              {[ lit "email" := VStr (lit "plain.example.com");
                 lit "name" := VNone ]} ] ]};
     memstore.next_id := 3; memstore.now := 1700000000 |}.

Definition recent_of (o : outcome recent) : recent :=
  match o with
  | Returns body => body
  | _ => Recent []
  end.
Definition five_recent : recent :=
  Eval vm_compute in recent_of (get_recent_waitlist live (Some 3) five).
Definition legacy_recent : recent :=
  Eval vm_compute in recent_of (get_recent_waitlist live None legacy).

Definition alice_doc : doc :=
  memstore.record_of alice (memstore.oid 0) 1700000000.
Definition nobody_doc : doc :=
  memstore.record_of nobody (memstore.oid 1) 1700000001.
Definition nameless_doc : doc := {[ lit "email" := VStr (lit "a@x.com") ]}.
Definition nomail_doc : doc := {[ lit "name" := VStr (lit "Nomail") ]}.

Definition environ : gmap str str :=
  {[ lit "DATABASE_URL" := lit "mongodb://localhost:27017" ]}.

Definition bob_doc : doc :=
  memstore.record_of bob (memstore.oid 2) 1700000002.
Definition plain_doc : doc :=
  {[ lit "email" := VStr (lit "plain.example.com"); lit "name" := VNone ]}.

(** An environment in which [DATABASE_NAME] is set, to the empty string. *)
Definition blank_environ : gmap str str :=
  {[ lit "DATABASE_URL" := lit "mongodb://localhost:27017";
     lit "DATABASE_NAME" := [] ]}.

(** A handle and an adapter interrupted from the keyboard in every call;
    [str(KeyboardInterrupt())] is the empty string. *)
Definition interrupt : exn := Exn "KeyboardInterrupt" [].
Definition interrupted_handle : Database () := {|
  db_name := AttrValue (VStr (lit "app"));
  list_collection_names := λ _, RaiseBase interrupt;
  count_documents := λ _ _ _, RaiseBase interrupt
|}.
Definition interrupted : Adapter () :=
  Build_Adapter () (Some interrupted_handle)
    (λ _ _ s, (RaiseBase interrupt, s)) (λ _ _ _ _, RaiseBase interrupt).

(** The statuses of a sequence of [POST /waitlist] requests. *)
Fixpoint post_statuses (ps : list Waitlist) (st : memstore.Store) : list Z :=
  match ps with
  | [] => []
  | p :: ps' =>
      let '(o, st') := create_waitlist_entry live p st in
      http_status o :: post_statuses ps' st'
  end.

Definition five_posts : list Waitlist := [alice; nobody; bob; al; carol].
Definition five_with_nobody : memstore.Store := posted five_posts empty_store.

Definition status_of (o : outcome status) : status :=
  match o with
  | Returns r => r
  | _ => initial_status
  end.
Definition down_status : status :=
  Eval vm_compute in status_of (test_database down blank_environ ()).
End samples.

(** * Properties *)

(** ** Strings and [split] *)

Lemma split1_first (name domain : str) :
  at_sign ∉ name →
  split1 at_sign (name ++ [at_sign] ++ domain) = [name; domain].
Proof.
  induction name as [|c name IH]; intros Hnot; simpl.
  - reflexivity.
  - apply not_elem_of_cons in Hnot as [Hc Hname].
    rewrite decide_False by congruence.
    simpl in IH. by rewrite IH.
Qed.

(** A string with an "@" splits at its first "@". *)
Lemma split1_elem_of (s : str) :
  at_sign ∈ s →
  ∃ name domain, s = name ++ [at_sign] ++ domain ∧ (at_sign ∉ name)
                 ∧ split1 at_sign s = [name; domain].
Proof.
  induction s as [|c s IH]; intros Hin.
  - by apply elem_of_nil in Hin.
  - destruct (decide (c = at_sign)) as [->|Hc].
    + exists [], s. split_and!; [done | apply not_elem_of_nil | reflexivity].
    + apply elem_of_cons in Hin as [Heq|Hin]; [congruence|].
      destruct (IH Hin) as (name & domain & -> & Hnot & Hsplit).
      exists (c :: name), domain. simpl. rewrite decide_False by done.
      simpl in Hsplit. rewrite Hsplit.
      split_and!; [done | | done].
      apply not_elem_of_cons. split; [congruence | done].
Qed.

(** ** [mask] *)

Example mask_ab : mask (VStr (lit "ab@example.com")) = Return (lit "a*@example.com").
Proof. reflexivity. Qed.
Example mask_alice : mask (VStr (lit "alice@x.com")) = Return (lit "a***e@x.com").
Proof. reflexivity. Qed.
Example mask_two_ats : mask (VStr (lit "bob@a@b")) = Return (lit "b*b@a@b").
Proof. reflexivity. Qed.
Example mask_one : mask (VStr (lit "a@x.com")) = Return (lit "a*@x.com").
Proof. reflexivity. Qed.
Example mask_zero : mask (VInt 0) = Return hidden.
Proof. reflexivity. Qed.

Lemma mask_None : mask VNone = Return hidden.
Proof. reflexivity. Qed.

Lemma mask_no_at (s : str) : at_sign ∉ s → mask (VStr s) = Return hidden.
Proof.
  intros Hnot. unfold mask. simpl.
  destruct (bool_decide (s = [])); simpl; [done|].
  by rewrite bool_decide_false.
Qed.

(** [mask] on an email with an "@", in terms of the part before the first
    "@" and the rest. *)
Lemma mask_split (name domain : str) :
  at_sign ∉ name →
  mask (VStr (name ++ [at_sign] ++ domain)) =
    masked ← (if (length name <=? 2)%nat
              then c ← index_first name; Return [c; star]
              else c ← index_first name;
                   d ← index_last name;
                   Return ([c] ++ replicate (length name - 2)%nat star ++ [d]));
    Return (masked ++ [at_sign] ++ domain).
Proof.
  intros Hnot. unfold mask.
  assert (Hne : name ++ [at_sign] ++ domain ≠ []) by (by destruct name).
  assert (Hin : at_sign ∈ name ++ [at_sign] ++ domain).
  { apply elem_of_app. right. apply elem_of_cons. by left. }
  simpl truthy. rewrite (bool_decide_false _ Hne). simpl negb. cbv iota.
  rewrite (bool_decide_true _ Hin). simpl negb. cbv iota.
  by rewrite split1_first.
Qed.

Lemma mask_long (name domain : str) :
  at_sign ∉ name → (2 < length name)%nat →
  ∃ c e, name !! 0%nat = Some c ∧ last name = Some e ∧
    mask (VStr (name ++ [at_sign] ++ domain)) =
      Return (([c] ++ replicate (length name - 2)%nat star ++ [e])
                ++ [at_sign] ++ domain).
Proof.
  intros Hnot Hlen. rewrite mask_split by done.
  destruct (Nat.leb_spec (length name) 2) as [?|_]; [lia|].
  destruct name as [|c name]; [simpl in Hlen; lia|].
  destruct (last (c :: name)) as [e|] eqn:Hlast.
  - exists c, e. split_and!; [done | done |].
    unfold index_last. rewrite Hlast. reflexivity.
  - by apply last_None in Hlast.
Qed.

Lemma mask_short (name domain : str) :
  at_sign ∉ name → (1 ≤ length name ≤ 2)%nat →
  ∃ c, name !! 0%nat = Some c ∧
    mask (VStr (name ++ [at_sign] ++ domain)) =
      Return ([c; star] ++ [at_sign] ++ domain).
Proof.
  intros Hnot Hlen. rewrite mask_split by done.
  destruct (Nat.leb_spec (length name) 2) as [_|?]; [|lia].
  destruct name as [|c name]; [simpl in Hlen; lia|].
  by exists c.
Qed.

Lemma mask_empty_local_part (domain : str) :
  mask (VStr ([at_sign] ++ domain)) = Raise IndexError_string.
Proof. exact (mask_split [] domain (not_elem_of_nil _)). Qed.

(** [mask] raises an instance of [Exception] exactly on a string that
    starts with "@" and on a non-zero integer or a timestamp; the unpacking
    of the split never fails. *)
Lemma mask_Raise (v : value) (e : exn) :
  mask v = Raise e ↔
    (∃ domain, v = VStr ([at_sign] ++ domain) ∧ e = IndexError_string)
    ∨ (∃ z, z ≠ 0 ∧ v = VInt z ∧ e = TypeError_not_iterable "int")
    ∨ (∃ t, v = VDatetime t ∧ e = TypeError_not_iterable "datetime.datetime").
Proof.
  split.
  - destruct v as [|s|z|t].
    + discriminate.
    + destruct (decide (at_sign ∈ s)) as [Hin|Hnot].
      * destruct (split1_elem_of s Hin) as (name & domain & -> & Hnot & _).
        destruct name as [|c name].
        -- rewrite (mask_split [] domain) by done. intros [= <-]. left. eauto.
        -- rewrite mask_split by done.
           destruct (Nat.leb_spec (length (c :: name)) 2) as [_|_]; [discriminate|].
           unfold index_last.
           destruct (last (c :: name)) eqn:Hlast; [discriminate|].
           by apply last_None in Hlast.
      * by rewrite mask_no_at.
    + unfold mask. simpl. destruct (Z.eqb_spec z 0) as [->|Hz]; simpl; [discriminate|].
      intros [= <-]. right. left. eauto.
    + unfold mask. simpl. intros [= <-]. right. right. eauto.
  - intros [(domain & -> & ->) | [(z & Hz & -> & ->) | (t & -> & ->)]].
    + apply mask_empty_local_part.
    + unfold mask. simpl. by destruct (Z.eqb_spec z 0).
    + reflexivity.
Qed.

(** [mask] raises nothing but instances of [Exception]. *)
Lemma mask_not_RaiseBase (v : value) (e : exn) : mask v ≠ RaiseBase e.
Proof.
  destruct v as [|s|z|t].
  - discriminate.
  - destruct (decide (at_sign ∈ s)) as [Hin|Hnot].
    + destruct (split1_elem_of s Hin) as (name & domain & -> & Hnot & _).
      rewrite mask_split by done.
      destruct name as [|c name]; [discriminate|].
      destruct (Nat.leb_spec (length (c :: name)) 2) as [_|_]; [discriminate|].
      unfold index_last. by destruct (last (c :: name)).
    + by rewrite mask_no_at.
  - unfold mask. simpl. by destruct (Z.eqb_spec z 0).
  - discriminate.
Qed.

(** ** The comprehension *)

Section mapM_result.
Context {X Y : Type} (f : X → result Y).

Lemma mapM_result_cons (x : X) (l : list X) :
  mapM f (x :: l) = y ← f x; k ← mapM f l; Return (y :: k).
Proof. reflexivity. Qed.

Lemma mapM_result_Return (l : list X) (k : list Y) :
  mapM f l = Return k ↔ Forall2 (λ x y, f x = Return y) l k.
Proof.
  revert k. induction l as [|x l IH]; intros k.
  - split.
    + intros [= <-]. constructor.
    + intros ->%Forall2_nil_inv_l. reflexivity.
  - rewrite mapM_result_cons. split.
    + destruct (f x) as [y|e|e] eqn:Hx; [|discriminate..]. simpl.
      destruct (mapM f l) as [k'|e|e] eqn:Hl; [|discriminate..]. simpl.
      intros [= <-]. constructor; [done|]. by apply IH.
    + intros (y & k' & Hx & Hl & ->)%Forall2_cons_inv_l.
      apply IH in Hl. by rewrite Hx, Hl.
Qed.

(** The first element on which [f] raises decides the exception. *)
Lemma mapM_result_Raise (l : list X) (e : exn) :
  mapM f l = Raise e ↔
    ∃ l1 x l2, l = l1 ++ x :: l2 ∧ f x = Raise e
               ∧ Forall (λ x', ∃ y, f x' = Return y) l1.
Proof.
  induction l as [|x l IH].
  - split; [discriminate|]. intros (l1 & x & l2 & Hl & _). by destruct l1.
  - rewrite mapM_result_cons. split.
    + destruct (f x) as [y|e'|e'] eqn:Hx; simpl.
      * destruct (mapM f l) as [k'|e'|e'] eqn:Hl; [discriminate| |discriminate].
        simpl. intros [= ->].
        destruct (proj1 IH eq_refl) as (l1 & x' & l2 & -> & Hx' & Hl1).
        exists (x :: l1), x', l2. split_and!; [done | done |].
        constructor; eauto.
      * intros [= ->]. exists [], x, l. split_and!; [done | done | constructor].
      * discriminate.
    + intros (l1 & x' & l2 & Hl & Hx' & Hl1).
      destruct l1 as [|x1 l1]; simplify_eq/=.
      * by rewrite Hx'.
      * apply Forall_cons in Hl1 as [[y Hy] Hl1]. rewrite Hy. simpl.
        assert (mapM f (l1 ++ x' :: l2) = Raise e) as ->; [|done].
        apply IH. eauto 10.
Qed.

Lemma mapM_result_Return_or_Raise (l : list X) (e : exn) :
  (∀ x e', f x ≠ RaiseBase e') → mapM f l ≠ RaiseBase e.
Proof.
  intros Hbase. induction l as [|x l IH]; [discriminate|].
  rewrite mapM_result_cons.
  destruct (f x) as [y|e'|e'] eqn:Hx; simpl; [|discriminate|].
  - destruct (mapM f l) as [k|e'|e']; simpl; [discriminate..|]. done.
  - by destruct (Hbase x e').
Qed.

Lemma mapM_result_Exists (l : list X) :
  (∀ x e, f x ≠ RaiseBase e) →
  Exists (λ x, ∃ e, f x = Raise e) l → ∃ e, mapM f l = Raise e.
Proof.
  intros Hbase.
  induction 1 as [x l [e Hx]|x l _ [e IH]]; rewrite mapM_result_cons.
  - rewrite Hx. eauto.
  - destruct (f x) as [y|e'|e'] eqn:Hx; simpl; [|eauto|].
    + rewrite IH. eauto.
    + by destruct (Hbase x e').
Qed.
End mapM_result.

Lemma dict_get_Some (d : doc) (key : str) (dflt v : value) :
  d !! key = Some v → dict_get d key dflt = v.
Proof. unfold dict_get. by intros ->. Qed.

Lemma dict_get_None (d : doc) (key : str) (dflt : value) :
  d !! key = None → dict_get d key dflt = dflt.
Proof. unfold dict_get. by intros ->. Qed.

Lemma sanitize_Return (d : doc) (it : item) :
  sanitize d = Return it ↔
    mask (dict_get d (lit "email") VNone) = Return (item_email it)
    ∧ item_name it = dict_get d (lit "name") (VStr (lit "Friend"))
    ∧ item_created_at it = dict_get d (lit "created_at") VNone.
Proof.
  unfold sanitize. destruct (mask _) as [m|e|e]; simpl.
  - split.
    + by intros [= <-].
    + destruct it as [e n c]. simpl. by intros ([= ->] & -> & ->).
  - split; [discriminate | by intros [? _]].
  - split; [discriminate | by intros [? _]].
Qed.

Lemma sanitize_Raise (d : doc) (e : exn) :
  sanitize d = Raise e ↔ mask (dict_get d (lit "email") VNone) = Raise e.
Proof.
  unfold sanitize.
  destruct (mask _) as [m|e'|e']; simpl; [split; discriminate | |split; discriminate].
  split; intros [= ->]; reflexivity.
Qed.

Lemma sanitize_not_RaiseBase (d : doc) (e : exn) : sanitize d ≠ RaiseBase e.
Proof.
  unfold sanitize.
  destruct (mask _) as [m|e'|e'] eqn:Hm; simpl; [discriminate..|].
  by destruct (mask_not_RaiseBase _ _ Hm).
Qed.

(** ** [get_recent_waitlist] *)

Section recent.
Context {S : Type} (A : Adapter S).

(** A returned body has one item per fetched document, each the
    sanitized form of its document. *)
Lemma get_recent_waitlist_Returns (limit : option Z) (s : S) (body : recent) :
  get_recent_waitlist A limit s = Returns body ↔
    ∃ docs, get_documents A (lit "waitlist") ∅ (default 5 limit) s = Return docs
            ∧ Forall2 (λ d it, sanitize d = Return it) docs (items body).
Proof.
  unfold get_recent_waitlist, get_recent_waitlist_try.
  destruct (get_documents A _ _ _ s) as [docs|e|e]; simpl.
  - destruct (mapM sanitize docs) as [its|e|e] eqn:Hm; simpl.
    + apply mapM_result_Return in Hm. split.
      * intros [= <-]. eauto.
      * intros (docs' & [= <-] & Hall). destruct body as [its']. simpl in Hall.
        apply mapM_result_Return in Hall. apply mapM_result_Return in Hm.
        congruence.
    + split; [discriminate|]. intros (docs' & [= <-] & Hall).
      apply mapM_result_Return in Hall. congruence.
    + split; [discriminate|]. intros (docs' & [= <-] & Hall).
      apply mapM_result_Return in Hall. congruence.
  - split; [discriminate|]. by intros (docs' & [=] & _).
  - split; [discriminate|]. by intros (docs' & [=] & _).
Qed.

Lemma get_recent_waitlist_item (limit : option Z) (s : S) (body : recent)
    (docs : list doc) (i : nat) (d : doc) :
  get_recent_waitlist A limit s = Returns body →
  get_documents A (lit "waitlist") ∅ (default 5 limit) s = Return docs →
  docs !! i = Some d →
  ∃ it, items body !! i = Some it ∧ sanitize d = Return it.
Proof.
  intros (docs' & Hdocs & Hall)%get_recent_waitlist_Returns Hfetch Hi.
  rewrite Hfetch in Hdocs. injection Hdocs as <-.
  destruct (Forall2_lookup_l _ _ _ _ _ Hall Hi) as (it & Hit & Hs). eauto.
Qed.
End recent.

(** ** The claims about [GET /waitlist/recent] *)

(** C1. For a fetched record whose email has an "@" and whose local part
    (the text before the first "@") has length L > 2, the email of its item
    in the returned body is the first character of the local part, L-2
    stars and the last character, L characters in all, then "@" and the
    domain unchanged. *)
Theorem C1_recent_masks_long_local_part {S} (A : Adapter S) (limit : option Z)
    (s : S) (body : recent) (docs : list doc) (i : nat) (d : doc)
    (name domain : str) :
  get_recent_waitlist A limit s = Returns body →
  get_documents A (lit "waitlist") ∅ (default 5 limit) s = Return docs →
  docs !! i = Some d →
  d !! lit "email" = Some (VStr (name ++ [at_sign] ++ domain)) →
  at_sign ∉ name →
  (2 < length name)%nat →
  ∃ it c e,
    items body !! i = Some it ∧ name !! 0%nat = Some c ∧ last name = Some e
    ∧ item_email it =
        ([c] ++ replicate (length name - 2)%nat star ++ [e]) ++ [at_sign] ++ domain
    ∧ length ([c] ++ replicate (length name - 2)%nat star ++ [e]) = length name.
Proof.
  intros Hret Hfetch Hi Hemail Hnot Hlen.
  destruct (get_recent_waitlist_item A _ _ _ _ _ _ Hret Hfetch Hi) as (it & Hit & Hs).
  apply sanitize_Return in Hs as (Hmask & _ & _).
  rewrite (dict_get_Some _ _ _ _ Hemail) in Hmask.
  destruct (mask_long name domain Hnot Hlen) as (c & e & Hc & He & Hm).
  rewrite Hm in Hmask. injection Hmask as Hmask.
  exists it, c, e. split_and!; [done | done | done | done |].
  rewrite !length_app, length_replicate. simpl. lia.
Qed.

(** C3. For a fetched record whose email field is missing, empty or
    without an "@", the email of its item in the returned body is the
    literal "hidden". *)
Theorem C3_recent_hides_other_emails {S} (A : Adapter S) (limit : option Z)
    (s : S) (body : recent) (docs : list doc) (i : nat) (d : doc) :
  get_recent_waitlist A limit s = Returns body →
  get_documents A (lit "waitlist") ∅ (default 5 limit) s = Return docs →
  docs !! i = Some d →
  (d !! lit "email" = None
   ∨ d !! lit "email" = Some (VStr [])
   ∨ ∃ e, d !! lit "email" = Some (VStr e) ∧ at_sign ∉ e) →
  ∃ it, items body !! i = Some it ∧ item_email it = lit "hidden".
Proof.
  intros Hret Hfetch Hi Hemail.
  destruct (get_recent_waitlist_item A _ _ _ _ _ _ Hret Hfetch Hi) as (it & Hit & Hs).
  apply sanitize_Return in Hs as (Hmask & _ & _).
  exists it. split; [done|].
  destruct Hemail as [He | [He | (e & He & Hnot)]].
  - rewrite (dict_get_None _ _ _ He) in Hmask.
    rewrite mask_None in Hmask. by injection Hmask as <-.
  - rewrite (dict_get_Some _ _ _ _ He) in Hmask.
    rewrite mask_no_at in Hmask by apply not_elem_of_nil. by injection Hmask as <-.
  - rewrite (dict_get_Some _ _ _ _ He) in Hmask.
    rewrite mask_no_at in Hmask by done. by injection Hmask as <-.
Qed.

(** C9. In the item of a fetched record the name is the record's name, or
    the literal "Friend" when the record has no name key, and created_at is
    the record's created_at unchanged, or null when the record has none. *)
Theorem C9_recent_name_and_created_at {S} (A : Adapter S) (limit : option Z)
    (s : S) (body : recent) (docs : list doc) (i : nat) (d : doc) :
  get_recent_waitlist A limit s = Returns body →
  get_documents A (lit "waitlist") ∅ (default 5 limit) s = Return docs →
  docs !! i = Some d →
  ∃ it, items body !! i = Some it
    ∧ item_name it = match d !! lit "name" with
                     | Some v => v
                     | None => VStr (lit "Friend")
                     end
    ∧ item_created_at it = match d !! lit "created_at" with
                           | Some v => v
                           | None => VNone
                           end.
Proof.
  intros Hret Hfetch Hi.
  destruct (get_recent_waitlist_item A _ _ _ _ _ _ Hret Hfetch Hi) as (it & Hit & Hs).
  apply sanitize_Return in Hs as (_ & Hname & Hcreated).
  exists it. split_and!; [done | |].
  - rewrite Hname. unfold dict_get. by destruct (d !! lit "name").
  - rewrite Hcreated. unfold dict_get. by destruct (d !! lit "created_at").
Qed.

(** C10. [mask] raises on an email that begins with "@", and one fetched
    record with such an email makes the whole request answer 500, although
    the fetch itself succeeded. *)
Theorem C10_recent_fails_on_empty_local_part {S} (A : Adapter S)
    (limit : option Z) (s : S) (docs : list doc) (i : nat) (d : doc)
    (domain : str) :
  get_documents A (lit "waitlist") ∅ (default 5 limit) s = Return docs →
  docs !! i = Some d →
  d !! lit "email" = Some (VStr ([at_sign] ++ domain)) →
  mask (VStr ([at_sign] ++ domain)) = Raise IndexError_string
  ∧ (∃ detail, get_recent_waitlist A limit s = RaisesHTTP 500 detail)
  ∧ http_status (get_recent_waitlist A limit s) = 500.
Proof.
  intros Hfetch Hi Hemail.
  pose proof (mask_empty_local_part domain) as Hmask.
  assert (∃ e, mapM sanitize docs = Raise e) as [e He].
  { apply mapM_result_Exists; [apply sanitize_not_RaiseBase|].
    apply Exists_exists. exists d. split.
    - by eapply list_elem_of_lookup_2.
    - exists IndexError_string. apply sanitize_Raise.
      by rewrite (dict_get_Some _ _ _ _ Hemail). }
  unfold get_recent_waitlist, get_recent_waitlist_try.
  rewrite Hfetch. simpl. rewrite He. simpl. eauto.
Qed.

(** C2. On an email with an empty local part [mask] does not produce a
    first character and a star: indexing the first character raises, and
    [GET /waitlist/recent] answers 500 once such a record is stored.  (For
    local parts of length 1 and 2 the masked form is [mask_short].) *)
Theorem C2_mask_empty_local_part_raises :
  mask (VStr (lit "@x.com")) = Raise IndexError_string
  ∧ get_recent_waitlist samples.live None samples.with_nobody
      = RaisesHTTP 500 (lit "string index out of range").
Proof.
  split.
  - reflexivity.
  - by vm_compute.
Qed.

(** ** The claims about error handling *)

(** C4 (amended). Whatever instance of [Exception] the body of
    [POST /waitlist], [GET /waitlist/count] or [GET /waitlist/recent]
    raises, be it thrown by the store adapter or by the masking, the
    handler raises the [HTTPException] with status 500 and the exception's
    text as detail.  An exception leaves a handler unconverted exactly when
    the store adapter raised one that is not an instance of [Exception]. *)
Theorem C4_handlers_convert_exceptions {S} (A : Adapter S)
    (payload : schemas.Waitlist) (limit : option Z) (s : S) (e : exn) :
  ((create_waitlist_entry_try A payload s).1 = Raise e →
     (create_waitlist_entry A payload s).1 = RaisesHTTP 500 (exn_str e))
  ∧ (get_waitlist_count_try A s = Raise e →
       get_waitlist_count A s = RaisesHTTP 500 (exn_str e))
  ∧ (get_recent_waitlist_try A (default 5 limit) s = Raise e →
       get_recent_waitlist A limit s = RaisesHTTP 500 (exn_str e))
  ∧ (∀ s', create_document A (lit "waitlist") payload s = (Raise e, s') →
       create_waitlist_entry A payload s = (RaisesHTTP 500 (exn_str e), s'))
  ∧ (∀ h, db A = Some h → count_documents h (lit "waitlist") ∅ s = Raise e →
       get_waitlist_count A s = RaisesHTTP 500 (exn_str e))
  ∧ (get_documents A (lit "waitlist") ∅ (default 5 limit) s = Raise e →
       get_recent_waitlist A limit s = RaisesHTTP 500 (exn_str e))
  ∧ (∀ docs, get_documents A (lit "waitlist") ∅ (default 5 limit) s = Return docs →
       mapM sanitize docs = Raise e →
       get_recent_waitlist A limit s = RaisesHTTP 500 (exn_str e))
  ∧ (∀ e',
       ((create_waitlist_entry A payload s).1 = Raises e'
          ↔ (create_document A (lit "waitlist") payload s).1 = RaiseBase e')
       ∧ (get_waitlist_count A s = Raises e'
            ↔ ∃ h, db A = Some h
                   ∧ count_documents h (lit "waitlist") ∅ s = RaiseBase e')
       ∧ (get_recent_waitlist A limit s = Raises e'
            ↔ get_documents A (lit "waitlist") ∅ (default 5 limit) s
                = RaiseBase e')).
Proof.
  unfold create_waitlist_entry, get_waitlist_count, get_recent_waitlist.
  split_and!.
  - destruct (create_waitlist_entry_try A payload s) as [res s']. simpl.
    by intros ->.
  - by intros ->.
  - by intros ->.
  - intros s' Hc. unfold create_waitlist_entry_try. by rewrite Hc.
  - intros h Hdb Hc. unfold get_waitlist_count_try. by rewrite Hdb, Hc.
  - intros Hg. unfold get_recent_waitlist_try. by rewrite Hg.
  - intros docs Hg Hm. unfold get_recent_waitlist_try. rewrite Hg. simpl.
    by rewrite Hm.
  - intros e'. split_and!.
    + unfold create_waitlist_entry_try.
      destruct (create_document A (lit "waitlist") payload s) as [[new_id|e1|e1] s'];
        simpl; split; (discriminate || by intros [= ->]).
    + unfold get_waitlist_count_try. destruct (db A) as [h|]; simpl.
      * destruct (count_documents h (lit "waitlist") ∅ s) as [n|e1|e1] eqn:Hc; simpl.
        -- split; [discriminate|]. intros (h' & [= <-] & Hc'). congruence.
        -- split; [discriminate|]. intros (h' & [= <-] & Hc'). congruence.
        -- split.
           ++ intros [= ->]. eauto.
           ++ intros (h' & [= <-] & Hc'). congruence.
      * split; [discriminate|]. by intros (h' & [=] & _).
    + unfold get_recent_waitlist_try.
      destruct (get_documents A (lit "waitlist") ∅ (default 5 limit) s)
        as [docs|e1|e1]; simpl.
      * destruct (mapM sanitize docs) as [its|e1|e1] eqn:Hm; simpl;
          [split; discriminate..|].
        apply mapM_result_Return_or_Raise in Hm; [done|].
        apply sanitize_not_RaiseBase.
      * split; discriminate.
      * split; by intros [= ->].
Qed.

(** C6. [GET /waitlist/count] with an unset handle answers 500 with the
    text "Database not available", and no count is made; with a handle,
    a count [n] of the [waitlist] collection under the empty filter gives
    the body [{count: n}], and an exception of the count gives 500 with
    the exception's text as detail. *)
Theorem C6_count_handler {S} (A : Adapter S) (s : S) :
  (db A = None →
     get_waitlist_count A s = RaisesHTTP 500 (lit "Database not available"))
  ∧ (∀ h n, db A = Some h →
       count_documents h (lit "waitlist") ∅ s = Return n →
       get_waitlist_count A s = Returns (Counted n))
  ∧ (∀ h e, db A = Some h →
       count_documents h (lit "waitlist") ∅ s = Raise e →
       get_waitlist_count A s = RaisesHTTP 500 (exn_str e)
       ∧ http_status (get_waitlist_count A s) = 500).
Proof.
  unfold get_waitlist_count, get_waitlist_count_try. split_and!.
  - by intros ->.
  - intros h n -> Hc. by rewrite Hc.
  - intros h e -> Hc. by rewrite Hc.
Qed.

(** The ways through [test_database]: an exception that is not an
    instance of [Exception] leaves it; otherwise it returns, in one of four
    ways. *)
Lemma test_database_cases {S} (A : Adapter S) (environ : gmap str str) (s : S) :
  (∃ e h, test_database A environ s = Raises e ∧ db A = Some h
          ∧ (db_name h = AttrRaisesBase e
             ∨ (∀ e', db_name h ≠ AttrRaises e')
               ∧ (∀ e', db_name h ≠ AttrRaisesBase e')
               ∧ list_collection_names h s = RaiseBase e))
  ∨ ∃ db_msg conn cs,
      test_database A environ s =
        Returns (Status ([check_mark] ++ lit " Running") db_msg
                   (env_status environ (lit "DATABASE_URL"))
                   (env_status environ (lit "DATABASE_NAME")) conn cs)
      ∧ (db A = None
         ∧ db_msg = warning_sign ++ lit "  Available but not initialized"
         ∧ conn = lit "Not Connected" ∧ cs = []
         ∨ (∃ h e, db A = Some h ∧ db_name h = AttrRaises e
              ∧ db_msg = [cross_mark] ++ lit " Error: " ++ take 50 (exn_str e)
              ∧ conn = lit "Not Connected" ∧ cs = [])
         ∨ (∃ h e, db A = Some h ∧ (∀ e', db_name h ≠ AttrRaises e')
              ∧ (∀ e', db_name h ≠ AttrRaisesBase e')
              ∧ list_collection_names h s = Raise e
              ∧ db_msg = warning_sign ++ lit "  Connected but Error: "
                           ++ take 50 (exn_str e)
              ∧ conn = lit "Connected" ∧ cs = [])
         ∨ (∃ h names, db A = Some h ∧ (∀ e', db_name h ≠ AttrRaises e')
              ∧ (∀ e', db_name h ≠ AttrRaisesBase e')
              ∧ list_collection_names h s = Return names
              ∧ db_msg = [check_mark] ++ lit " Connected & Working"
              ∧ conn = lit "Connected" ∧ cs = take 10 names)).
Proof.
  unfold test_database, test_database_try, test_database_list.
  destruct (db A) as [h|] eqn:Hdb.
  - destruct (db_name h) as [|v|e|e] eqn:Hattr.
    + destruct (list_collection_names h s) as [names|e|e] eqn:Hlist.
      * right. do 3 eexists. split; [reflexivity|]. do 3 right.
        exists h, names. by rewrite Hattr.
      * right. do 3 eexists. split; [reflexivity|]. right. right. left.
        exists h, e. by rewrite Hattr.
      * left. exists e, h. split_and!; [done | done |]. right. by rewrite Hattr.
    + destruct (list_collection_names h s) as [names|e|e] eqn:Hlist.
      * right. do 3 eexists. split; [reflexivity|]. do 3 right.
        exists h, names. by rewrite Hattr.
      * right. do 3 eexists. split; [reflexivity|]. right. right. left.
        exists h, e. by rewrite Hattr.
      * left. exists e, h. split_and!; [done | done |]. right. by rewrite Hattr.
    + right. do 3 eexists. split; [reflexivity|]. right. left. by exists h, e.
    + left. exists e, h. split_and!; [done | done |]. by left.
  - right. do 3 eexists. split; [reflexivity|]. by left.
Qed.


(** ** The store adapter of the spec *)

Lemma memstore_filter_empty (l : list doc) :
  filter (memstore.matches ∅) l = l.
Proof.
  induction l as [|d l IH]; [done|].
  rewrite filter_cons_True by apply map_Forall_empty. by rewrite IH.
Qed.

Lemma memstore_get_documents (name : str) (limit : Z) (st : memstore.Store) :
  get_documents (memstore.adapter (Some name)) (lit "waitlist") ∅ limit st =
    Return (take (Z.to_nat limit) (memstore.documents (lit "waitlist") st)).
Proof.
  unfold memstore.adapter, memstore.get_documents. simpl.
  by rewrite memstore_filter_empty.
Qed.

Lemma memstore_oid_length (n : N) : length (memstore.oid n) = 24%nat.
Proof. unfold memstore.oid. by rewrite length_map, length_seq. Qed.

Lemma memstore_create_document (name : str) (payload : schemas.Waitlist)
    (st : memstore.Store) :
  ∃ st', create_document (memstore.adapter (Some name)) (lit "waitlist") payload st
           = (Return (memstore.oid (memstore.next_id st)), st')
         ∧ memstore.documents (lit "waitlist") st' =
             memstore.documents (lit "waitlist") st
               ++ [memstore.record_of payload (memstore.oid (memstore.next_id st))
                     (memstore.now st)].
Proof.
  eexists. split; [reflexivity|].
  unfold memstore.documents at 1. simpl. by rewrite lookup_insert_eq.
Qed.

(** ** The claims about [POST /waitlist] and the listing *)

(** C7. When the insert of a payload returns an id, [POST /waitlist]
    returns, with status 200, that id and the confirmation message, which
    is the same constant for every payload; over the store adapter of the
    spec the insert of every payload succeeds when the store is configured
    and the id is not empty. *)
Theorem C7_create_returns_id_and_message :
  (∀ {S} (A : Adapter S) (payload : schemas.Waitlist) (s s' : S) (new_id : str),
     create_document A (lit "waitlist") payload s = (Return new_id, s') →
     create_waitlist_entry A payload s =
       (Returns (Created new_id (lit "Thanks for joining the waitlist!")), s')
     ∧ http_status (create_waitlist_entry A payload s).1 = 200)
  ∧ (∀ (name : str) (payload : schemas.Waitlist) (st : memstore.Store),
       ∃ new_id st',
         create_waitlist_entry (memstore.adapter (Some name)) payload st =
           (Returns (Created new_id (lit "Thanks for joining the waitlist!")), st')
         ∧ new_id ≠ []).
Proof.
  assert (Hgen : ∀ {S} (A : Adapter S) payload (s s' : S) new_id,
    create_document A (lit "waitlist") payload s = (Return new_id, s') →
    create_waitlist_entry A payload s =
      (Returns (Created new_id (lit "Thanks for joining the waitlist!")), s')).
  { intros S A payload s s' new_id Hc.
    unfold create_waitlist_entry, create_waitlist_entry_try. by rewrite Hc. }
  split.
  - intros S A payload s s' new_id Hc. split; [by apply Hgen|].
    by rewrite (Hgen _ _ _ _ _ _ Hc).
  - intros name payload st.
    destruct (memstore_create_document name payload st) as (st' & Hc & _).
    exists (memstore.oid (memstore.next_id st)), st'. split; [by apply Hgen|].
    intros Hnil. pose proof (memstore_oid_length (memstore.next_id st)) as Hlen.
    by rewrite Hnil in Hlen.
Qed.

(** [GET /waitlist/recent] without a limit is the request with limit 5;
    the handler's answer is decided by what the adapter's fetch returns for
    the collection [waitlist], the empty filter and the requested limit; a
    returned body has exactly one item per fetched document; and over the
    store adapter of the spec, with 5 entries stored and limit 3, a
    returned body has exactly 3 items, which is the case whenever the first
    3 entries can be masked. *)
Lemma get_recent_waitlist_limit_and_length :
  (∀ {S} (A : Adapter S) (s : S),
     get_recent_waitlist A None s = get_recent_waitlist A (Some 5) s)
  ∧ (∀ {S S'} (A : Adapter S) (A' : Adapter S') (limit : Z) (s : S) (s' : S'),
       get_documents A (lit "waitlist") ∅ limit s =
         get_documents A' (lit "waitlist") ∅ limit s' →
       get_recent_waitlist A (Some limit) s = get_recent_waitlist A' (Some limit) s')
  ∧ (∀ {S} (A : Adapter S) (limit : Z) (s : S) (docs : list doc) (body : recent),
       get_documents A (lit "waitlist") ∅ limit s = Return docs →
       get_recent_waitlist A (Some limit) s = Returns body →
       length (items body) = length docs)
  ∧ (∀ (name : str) (st : memstore.Store),
       length (memstore.documents (lit "waitlist") st) = 5%nat →
       (∀ body, get_recent_waitlist (memstore.adapter (Some name)) (Some 3) st
                  = Returns body →
                length (items body) = 3%nat)
       ∧ (Forall (λ d, ∃ it, sanitize d = Return it)
            (take 3 (memstore.documents (lit "waitlist") st)) →
          ∃ body, get_recent_waitlist (memstore.adapter (Some name)) (Some 3) st
                    = Returns body
                  ∧ length (items body) = 3%nat)).
Proof.
  assert (Hlen : ∀ {S} (A : Adapter S) limit (s : S) docs body,
    get_documents A (lit "waitlist") ∅ limit s = Return docs →
    get_recent_waitlist A (Some limit) s = Returns body →
    length (items body) = length docs).
  { intros S A limit s docs body Hfetch
      (docs' & Hdocs & Hall)%get_recent_waitlist_Returns.
    simpl in Hdocs. rewrite Hfetch in Hdocs. injection Hdocs as <-.
    symmetry. by eapply Forall2_length. }
  split_and!.
  - reflexivity.
  - intros S S' A A' limit s s' Heq.
    unfold get_recent_waitlist, get_recent_waitlist_try. simpl. by rewrite Heq.
  - exact Hlen.
  - intros name st Hfive.
    pose proof (memstore_get_documents name 3 st) as Hfetch.
    assert (Htake : length (take (Z.to_nat 3)
                      (memstore.documents (lit "waitlist") st)) = 3%nat).
    { rewrite length_take, Hfive. reflexivity. }
    split.
    + intros body Hret. by rewrite (Hlen _ _ _ _ _ _ Hfetch Hret).
    + intros Hall.
      assert (∃ its, mapM sanitize (take (Z.to_nat 3)
                (memstore.documents (lit "waitlist") st)) = Return its) as [its Hits].
      { change (Z.to_nat 3) with 3%nat. revert Hall.
        generalize (take 3 (memstore.documents (lit "waitlist") st)).
        induction 1 as [|d l [it Hd] _ [its IH]]; [by exists []|].
        exists (it :: its). rewrite mapM_result_cons, Hd. simpl. by rewrite IH. }
      assert (Hret : get_recent_waitlist (memstore.adapter (Some name)) (Some 3) st
                       = Returns (Recent its)).
      { unfold get_recent_waitlist, get_recent_waitlist_try. simpl default.
        rewrite Hfetch. simpl. by rewrite Hits. }
      exists (Recent its). split; [done|].
      by rewrite (Hlen _ _ _ _ _ _ Hfetch Hret).
Qed.

(** C8. With 5 entries stored and limit 3 the listing does not always have
    3 items: five [POST /waitlist] requests, each answered 200, one of them
    with the email "@x.com", leave 5 entries stored, and
    [GET /waitlist/recent] with limit 3 then answers 500 and no item, as
    the masking of the second entry raises. *)
Theorem C8_recent_fails_with_five_stored :
  samples.post_statuses samples.five_posts samples.empty_store
    = [200; 200; 200; 200; 200]
  ∧ length (memstore.documents (lit "waitlist") samples.five_with_nobody) = 5%nat
  ∧ get_documents samples.live (lit "waitlist") ∅ 3 samples.five_with_nobody
    = Return (take 3 (memstore.documents (lit "waitlist") samples.five_with_nobody))
  ∧ get_recent_waitlist samples.live (Some 3) samples.five_with_nobody
    = RaisesHTTP 500 (lit "string index out of range").
Proof. split_and!; by vm_compute. Qed.

(** ** Exceptions that are not instances of [Exception] *)

(** Interrupted in the store adapter, the three waitlist handlers let the
    [KeyboardInterrupt] out instead of answering 500. *)
Lemma C4_counterexample :
  create_document samples.interrupted (lit "waitlist") samples.alice ()
    = (RaiseBase samples.interrupt, ())
  ∧ create_waitlist_entry samples.interrupted samples.alice ()
    = (Raises samples.interrupt, ())
  ∧ get_waitlist_count samples.interrupted () = Raises samples.interrupt
  ∧ get_recent_waitlist samples.interrupted None () = Raises samples.interrupt.
Proof. split_and!; reflexivity. Qed.


(** ** The theorems at sample requests *)

Lemma C1_witness :
  (get_recent_waitlist samples.live (Some 3) samples.five
     = Returns samples.five_recent
   ∧ get_documents samples.live (lit "waitlist") ∅ 3 samples.five
     = Return (take 3 (memstore.documents (lit "waitlist") samples.five))
   ∧ take 3 (memstore.documents (lit "waitlist") samples.five) !! 0%nat
     = Some samples.alice_doc
   ∧ samples.alice_doc !! lit "email"
     = Some (VStr (lit "alice" ++ [at_sign] ++ lit "example.com"))
   ∧ (at_sign ∉ lit "alice") ∧ (2 < length (lit "alice"))%nat)
  ∧ ∃ it, items samples.five_recent !! 0%nat = Some it
          ∧ item_email it = lit "a***e@example.com".
Proof.
  assert (H1 : get_recent_waitlist samples.live (Some 3) samples.five
                 = Returns samples.five_recent) by (by vm_compute).
  assert (H2 : get_documents samples.live (lit "waitlist") ∅ 3 samples.five
                 = Return (take 3 (memstore.documents (lit "waitlist") samples.five)))
    by (by vm_compute).
  assert (H3 : take 3 (memstore.documents (lit "waitlist") samples.five) !! 0%nat
                 = Some samples.alice_doc) by (by vm_compute).
  assert (H4 : samples.alice_doc !! lit "email"
                 = Some (VStr (lit "alice" ++ [at_sign] ++ lit "example.com")))
    by (by vm_compute).
  assert (H5 : at_sign ∉ lit "alice") by (apply (bool_decide_unpack (at_sign ∉ lit "alice")); by vm_compute).
  assert (H6 : (2 < length (lit "alice"))%nat) by (vm_compute; lia).
  split; [done|].
  destruct (C1_recent_masks_long_local_part samples.live (Some 3) samples.five
              samples.five_recent _ 0%nat samples.alice_doc (lit "alice")
              (lit "example.com") H1 H2 H3 H4 H5 H6)
    as (it & c & e & Hit & Hc & He & Hemail & _).
  exists it. split; [done|].
  injection Hc as <-. injection He as <-. exact Hemail.
Defined.

Lemma C3_witness :
  (get_recent_waitlist samples.live None samples.legacy
     = Returns samples.legacy_recent
   ∧ get_documents samples.live (lit "waitlist") ∅ 5 samples.legacy
     = Return (memstore.documents (lit "waitlist") samples.legacy)
   ∧ memstore.documents (lit "waitlist") samples.legacy !! 1%nat
     = Some samples.nomail_doc
   ∧ samples.nomail_doc !! lit "email" = None)
  ∧ ∃ it, items samples.legacy_recent !! 1%nat = Some it
          ∧ item_email it = lit "hidden".
Proof.
  assert (H1 : get_recent_waitlist samples.live None samples.legacy
                 = Returns samples.legacy_recent) by (by vm_compute).
  assert (H2 : get_documents samples.live (lit "waitlist") ∅ 5 samples.legacy
                 = Return (memstore.documents (lit "waitlist") samples.legacy))
    by (by vm_compute).
  assert (H3 : memstore.documents (lit "waitlist") samples.legacy !! 1%nat
                 = Some samples.nomail_doc) by (by vm_compute).
  assert (H4 : samples.nomail_doc !! lit "email" = None) by (by vm_compute).
  split; [done|].
  exact (C3_recent_hides_other_emails samples.live None samples.legacy
           samples.legacy_recent _ 1%nat samples.nomail_doc H1 H2 H3 (or_introl H4)).
Defined.

Lemma C9_witness :
  (get_recent_waitlist samples.live None samples.legacy
     = Returns samples.legacy_recent
   ∧ get_documents samples.live (lit "waitlist") ∅ 5 samples.legacy
     = Return (memstore.documents (lit "waitlist") samples.legacy)
   ∧ memstore.documents (lit "waitlist") samples.legacy !! 0%nat
     = Some samples.nameless_doc)
  ∧ ∃ it, items samples.legacy_recent !! 0%nat = Some it
          ∧ item_name it = VStr (lit "Friend")
          ∧ item_created_at it = VNone.
Proof.
  assert (H1 : get_recent_waitlist samples.live None samples.legacy
                 = Returns samples.legacy_recent) by (by vm_compute).
  assert (H2 : get_documents samples.live (lit "waitlist") ∅ 5 samples.legacy
                 = Return (memstore.documents (lit "waitlist") samples.legacy))
    by (by vm_compute).
  assert (H3 : memstore.documents (lit "waitlist") samples.legacy !! 0%nat
                 = Some samples.nameless_doc) by (by vm_compute).
  split; [done|].
  exact (C9_recent_name_and_created_at samples.live None samples.legacy
           samples.legacy_recent _ 0%nat samples.nameless_doc H1 H2 H3).
Defined.

Lemma C10_witness :
  (get_documents samples.live (lit "waitlist") ∅ 5 samples.with_nobody
     = Return (memstore.documents (lit "waitlist") samples.with_nobody)
   ∧ memstore.documents (lit "waitlist") samples.with_nobody !! 1%nat
     = Some samples.nobody_doc
   ∧ samples.nobody_doc !! lit "email" = Some (VStr ([at_sign] ++ lit "x.com")))
  ∧ http_status (get_recent_waitlist samples.live None samples.with_nobody) = 500.
Proof.
  assert (H1 : get_documents samples.live (lit "waitlist") ∅ 5 samples.with_nobody
                 = Return (memstore.documents (lit "waitlist") samples.with_nobody))
    by (by vm_compute).
  assert (H2 : memstore.documents (lit "waitlist") samples.with_nobody !! 1%nat
                 = Some samples.nobody_doc) by (by vm_compute).
  assert (H3 : samples.nobody_doc !! lit "email"
                 = Some (VStr ([at_sign] ++ lit "x.com"))) by (by vm_compute).
  split; [done|].
  exact (proj2 (proj2 (C10_recent_fails_on_empty_local_part samples.live None
                         samples.with_nobody _ 1%nat samples.nobody_doc
                         (lit "x.com") H1 H2 H3))).
Defined.

Lemma C4_witness :
  (create_document samples.down (lit "waitlist") samples.alice ()
     = (Raise samples.timeout, ())
   ∧ count_documents samples.down_handle (lit "waitlist") ∅ ()
     = Raise samples.timeout
   ∧ get_documents samples.down (lit "waitlist") ∅ 5 () = Raise samples.timeout)
  ∧ create_waitlist_entry samples.down samples.alice ()
      = (RaisesHTTP 500 (exn_str samples.timeout), ())
  ∧ get_waitlist_count samples.down () = RaisesHTTP 500 (exn_str samples.timeout)
  ∧ get_recent_waitlist samples.down None ()
      = RaisesHTTP 500 (exn_str samples.timeout).
Proof.
  split; [done|].
  destruct (C4_handlers_convert_exceptions samples.down samples.alice None ()
              samples.timeout) as (_ & _ & _ & Hcreate & Hcount & Hrecent & _).
  split_and!.
  - apply Hcreate. reflexivity.
  - apply (Hcount samples.down_handle); reflexivity.
  - apply Hrecent. reflexivity.
Defined.


Lemma C6_witness :
  (db samples.unset = None
   ∧ db samples.live = Some (memstore.handle (lit "app"))
   ∧ count_documents (memstore.handle (lit "app")) (lit "waitlist") ∅ samples.five
     = Return 5
   ∧ db samples.down = Some samples.down_handle
   ∧ count_documents samples.down_handle (lit "waitlist") ∅ ()
     = Raise samples.timeout)
  ∧ get_waitlist_count samples.unset samples.five
      = RaisesHTTP 500 (lit "Database not available")
  ∧ get_waitlist_count samples.live samples.five = Returns (Counted 5)
  ∧ get_waitlist_count samples.down () = RaisesHTTP 500 (exn_str samples.timeout).
Proof.
  assert (H3 : count_documents (memstore.handle (lit "app")) (lit "waitlist") ∅
                 samples.five = Return 5) by (by vm_compute).
  split; [done|].
  split_and!.
  - apply (proj1 (C6_count_handler samples.unset samples.five)). reflexivity.
  - apply (proj1 (proj2 (C6_count_handler samples.live samples.five))
             (memstore.handle (lit "app")) 5); [reflexivity | exact H3].
  - apply (proj2 (proj2 (C6_count_handler samples.down ()))
             samples.down_handle samples.timeout); reflexivity.
Defined.

Lemma C7_witness :
  create_document samples.live (lit "waitlist") samples.alice samples.empty_store
    = (Return (memstore.oid 0), samples.posted [samples.alice] samples.empty_store)
  ∧ create_waitlist_entry samples.live samples.alice samples.empty_store
    = (Returns (Created (lit "000000000000000000000000")
                  (lit "Thanks for joining the waitlist!")),
       samples.posted [samples.alice] samples.empty_store)
  ∧ http_status (create_waitlist_entry samples.live samples.alice
                   samples.empty_store).1 = 200.
Proof.
  assert (H1 : create_document samples.live (lit "waitlist") samples.alice
                 samples.empty_store
               = (Return (memstore.oid 0),
                  samples.posted [samples.alice] samples.empty_store))
    by (by vm_compute).
  split; [done|].
  destruct (proj1 C7_create_returns_id_and_message _ samples.live samples.alice
              samples.empty_store _ _ H1) as [Hr Hs].
  split; [|done]. rewrite Hr. by vm_compute.
Defined.

Lemma get_recent_waitlist_three_of_five :
  (length (memstore.documents (lit "waitlist") samples.five) = 5%nat
   ∧ get_recent_waitlist samples.live (Some 3) samples.five
     = Returns samples.five_recent)
  ∧ length (items samples.five_recent) = 3%nat.
Proof.
  assert (H1 : length (memstore.documents (lit "waitlist") samples.five) = 5%nat)
    by (by vm_compute).
  assert (H2 : get_recent_waitlist samples.live (Some 3) samples.five
                 = Returns samples.five_recent) by (by vm_compute).
  split; [done|].
  destruct get_recent_waitlist_limit_and_length as (_ & _ & _ & Hmem).
  exact (proj1 (Hmem (lit "app") samples.five H1) samples.five_recent H2).
Qed.

(** * Further properties of the handlers *)

(** ** [mask] *)

Lemma index_last_Return (s : str) (c : char) :
  index_last s = Return c ↔ last s = Some c.
Proof.
  unfold index_last. destruct (last s); split; intros [= ->]; reflexivity.
Qed.

(** The masked local part: what [mask] puts before the "@". *)
Lemma mask_Return_split (name domain m : str) :
  at_sign ∉ name →
  mask (VStr (name ++ [at_sign] ++ domain)) = Return m →
  ∃ c name', name = c :: name'
    ∧ ((length name ≤ 2)%nat ∧ m = [c; star] ++ [at_sign] ++ domain
       ∨ ∃ e, (2 < length name)%nat ∧ last name = Some e
              ∧ m = ([c] ++ replicate (length name - 2)%nat star ++ [e])
                      ++ [at_sign] ++ domain).
Proof.
  intros Hnot. rewrite mask_split by done.
  destruct name as [|c name'].
  - discriminate.
  - intros Hm. exists c, name'. split; [done|]. revert Hm.
    destruct (Nat.leb_spec (length (c :: name')) 2) as [Hle|Hgt].
    + intros [= <-]. by left.
    + unfold index_first, index_last.
      destruct (last (c :: name')) as [e|] eqn:Hlast; [|discriminate].
      intros [= <-]. right. by exists e.
Qed.

(** X1. On a string [mask] raises exactly when the string begins with
    "@", and what it raises then is the [IndexError] of the empty local
    part; on every other string it returns, so the unpacking of the split
    never fails. *)
Theorem X1_mask_raises_exactly (s : str) :
  ((∃ e, mask (VStr s) = Raise e) ↔ head s = Some at_sign)
  ∧ ((∃ m, mask (VStr s) = Return m) ↔ head s ≠ Some at_sign)
  ∧ (∀ e, mask (VStr s) = Raise e → e = IndexError_string)
  ∧ (∀ e, mask (VStr s) ≠ RaiseBase e).
Proof.
  assert (Hraise : ∀ e, mask (VStr s) = Raise e →
            e = IndexError_string ∧ head s = Some at_sign).
  { intros e [(domain & [= ->] & ->) | [(z & _ & [=] & _) | (t & [=] & _)]]%mask_Raise.
    done. }
  split_and!.
  - split.
    + intros [e He]. by destruct (Hraise e He).
    + intros Hhead. exists IndexError_string.
      destruct s as [|c s']; [done|]. injection Hhead as ->.
      apply (mask_empty_local_part s').
  - split.
    + intros [m Hm] Hhead. destruct s as [|c s']; [done|]. injection Hhead as ->.
      pose proof (mask_empty_local_part s') as Hr.
      change (mask (VStr (at_sign :: s')) = Raise IndexError_string) in Hr.
      congruence.
    + intros Hhead. pose proof (mask_not_RaiseBase (VStr s)) as Hbase.
      destruct (mask (VStr s)) as [m|e|e]; [eauto | |].
      * by destruct (Hraise e eq_refl).
      * by destruct (Hbase e).
  - intros e He. by destruct (Hraise e He).
  - intros e. apply mask_not_RaiseBase.
Qed.

(** X2. Masking is idempotent: whatever string [mask] returns, be it
    "hidden" or a masked address, [mask] returns it unchanged. *)
Theorem X2_mask_idempotent (v : value) (m : str) :
  mask v = Return m → mask (VStr m) = Return m.
Proof.
  assert (Hhidden : mask (VStr hidden) = Return hidden) by reflexivity.
  destruct v as [|s|z|t].
  - by intros [= <-].
  - destruct (decide (at_sign ∈ s)) as [Hin|Hnot].
    + destruct (split1_elem_of s Hin) as (name & domain & -> & Hnot & _).
      intros Hm.
      destruct (mask_Return_split name domain m Hnot Hm)
        as (c & name' & -> & [[Hle ->] | (e & Hgt & Hlast & ->)]).
      * apply not_elem_of_cons in Hnot as [Hc _].
        assert (Hnot2 : at_sign ∉ [c; star]).
        { apply not_elem_of_cons. split; [done|].
          apply not_elem_of_cons. split; [done | apply not_elem_of_nil]. }
        by rewrite (mask_split [c; star] domain Hnot2).
      * assert (He : e ∈ c :: name') by (by apply last_Some_elem_of).
        assert (Hne : at_sign ≠ e) by (intros <-; done).
        apply not_elem_of_cons in Hnot as [Hc _].
        set (masked := [c] ++ replicate (length (c :: name') - 2)%nat star ++ [e]).
        assert (Hnot2 : at_sign ∉ masked).
        { unfold masked. rewrite !not_elem_of_app. split_and!.
          - by apply not_elem_of_cons; split; [|apply not_elem_of_nil].
          - intros [? _]%elem_of_replicate. done.
          - by apply not_elem_of_cons; split; [|apply not_elem_of_nil]. }
        assert (Hlen : length masked = length (c :: name')).
        { unfold masked. rewrite !length_app, length_replicate. simpl in *. lia. }
        rewrite (mask_split masked domain Hnot2), Hlen.
        destruct (Nat.leb_spec (length (c :: name')) 2) as [?|_]; [lia|].
        assert (Hl : index_last masked = Return e).
        { apply index_last_Return. unfold masked.
          rewrite app_assoc. apply last_snoc. }
        rewrite Hl. reflexivity.
    + rewrite mask_no_at by done. by intros [= <-].
  - unfold mask. simpl. destruct (Z.eqb_spec z 0); simpl; [|discriminate].
    by intros [= <-].
  - discriminate.
Qed.

(** X3. The masked address of an email with local part of length L keeps
    the domain and has max(2, L) characters before the "@": a one-character
    local part is shown with two characters, every longer one with its own
    length. *)
Theorem X3_mask_length (name domain m : str) :
  at_sign ∉ name →
  mask (VStr (name ++ [at_sign] ++ domain)) = Return m →
  length m = (Nat.max 2 (length name) + 1 + length domain)%nat
  ∧ drop (Nat.max 2 (length name)) m = [at_sign] ++ domain.
Proof.
  intros Hnot Hm.
  destruct (mask_Return_split name domain m Hnot Hm)
    as (c & name' & -> & [[Hle ->] | (e & Hgt & Hlast & ->)]).
  - replace (Nat.max 2 (length (c :: name'))) with 2%nat by lia.
    split; [simpl; lia | reflexivity].
  - replace (Nat.max 2 (length (c :: name'))) with (length (c :: name')) by lia.
    set (masked := [c] ++ replicate (length (c :: name') - 2)%nat star ++ [e]).
    assert (Hlen : length masked = length (c :: name')).
    { unfold masked. rewrite !length_app, length_replicate. simpl in *. lia. }
    split.
    + rewrite length_app, Hlen. simpl. lia.
    + rewrite <- Hlen. by rewrite drop_app_length.
Qed.

(** X4. [mask] shows nothing of the local part but its first character,
    and for more than two characters its length and last character: two
    emails with the same domain get the same result when their local parts
    begin alike and either both have at most two characters or have the
    same length and the same last character. *)
Theorem X4_mask_hides_local_part (name1 name2 domain : str) :
  at_sign ∉ name1 → at_sign ∉ name2 →
  head name1 = head name2 →
  ((length name1 ≤ 2)%nat ∧ (length name2 ≤ 2)%nat
   ∨ length name1 = length name2 ∧ last name1 = last name2) →
  mask (VStr (name1 ++ [at_sign] ++ domain))
    = mask (VStr (name2 ++ [at_sign] ++ domain)).
Proof.
  intros Hnot1 Hnot2 Hhead Hcase.
  rewrite !mask_split by done.
  assert (Hfirst : index_first name1 = index_first name2).
  { destruct name1, name2; simplify_eq/=; done. }
  destruct Hcase as [[Hl1 Hl2] | [Hlen Hlast]].
  - destruct (Nat.leb_spec (length name1) 2) as [_|?]; [|lia].
    destruct (Nat.leb_spec (length name2) 2) as [_|?]; [|lia].
    by rewrite Hfirst.
  - unfold index_last. by rewrite Hfirst, Hlen, Hlast.
Qed.

(** ** [get_recent_waitlist]: all records or none *)

(** [mask] returns or raises, and returns exactly on [None], on 0, and on
    a string that does not begin with "@". *)
Lemma mask_Return_iff (v : value) :
  (∃ m, mask v = Return m) ↔
    match v with
    | VNone => True
    | VStr e => head e ≠ Some at_sign
    | VInt z => z = 0
    | VDatetime _ => False
    end.
Proof.
  destruct (mask v) as [m|e|e] eqn:Hm;
    [| | by destruct (mask_not_RaiseBase _ _ Hm)].
  - split; [intros _ | eauto].
    destruct v as [|s|z|t]; [done | | |].
    + intros Hhead. destruct s as [|c s']; [done|]. injection Hhead as ->.
      pose proof (mask_empty_local_part s') as Hr.
      change (mask (VStr (at_sign :: s')) = Raise IndexError_string) in Hr.
      congruence.
    + destruct (decide (z = 0)) as [|Hz]; [done|].
      assert (mask (VInt z) = Raise (TypeError_not_iterable "int")) as Hr
        by (apply mask_Raise; eauto 8).
      congruence.
    + discriminate.
  - split; [by intros [m [=]]|].
    apply mask_Raise in Hm as [(domain & -> & _) | [(z & Hz & -> & _) | (t & -> & _)]];
      done.
Qed.

Lemma sanitize_Return_iff (d : doc) :
  (∃ it, sanitize d = Return it) ↔
    match d !! lit "email" with
    | None | Some VNone => True
    | Some (VStr e) => head e ≠ Some at_sign
    | Some (VInt z) => z = 0
    | Some (VDatetime _) => False
    end.
Proof.
  transitivity (∃ m, mask (dict_get d (lit "email") VNone) = Return m).
  - split.
    + intros [it (Hm & _)%sanitize_Return]. eauto.
    + intros [m Hm]. unfold sanitize. rewrite Hm. simpl. eauto.
  - rewrite mask_Return_iff. unfold dict_get.
    by destruct (d !! lit "email") as [[| | |]|].
Qed.

Lemma mapM_result_Forall {X Y : Type} (f : X → result Y) (l : list X) :
  (∃ k, mapM f l = Return k) ↔ Forall (λ x, ∃ y, f x = Return y) l.
Proof.
  split.
  - intros [k Hk%mapM_result_Return].
    induction Hk; constructor; eauto.
  - induction 1 as [|x l [y Hx] _ [k IH]]; [by exists []|].
    exists (y :: k). rewrite mapM_result_cons, Hx. simpl. by rewrite IH.
Qed.

(** X5. Once the fetch has succeeded with records whose email is absent,
    null or a string, [GET /waitlist/recent] returns a body exactly when no
    email begins with "@"; one such record costs the whole listing. *)
Theorem X5_recent_returns_iff_all_maskable {S} (A : Adapter S)
    (limit : option Z) (s : S) (docs : list doc) :
  get_documents A (lit "waitlist") ∅ (default 5 limit) s = Return docs →
  Forall (λ d : doc, d !! lit "email" = None
                     ∨ d !! lit "email" = Some VNone
                     ∨ ∃ e, d !! lit "email" = Some (VStr e)) docs →
  ((∃ body, get_recent_waitlist A limit s = Returns body) ↔
     Forall (λ d : doc, ∀ e, d !! lit "email" = Some (VStr e) →
                             head e ≠ Some at_sign) docs).
Proof.
  intros Hfetch Hshape.
  transitivity (∃ k, mapM sanitize docs = Return k).
  - unfold get_recent_waitlist, get_recent_waitlist_try. rewrite Hfetch. simpl.
    destruct (mapM sanitize docs) as [k|e|e]; simpl.
    + split; eauto.
    + split; [by intros [body [=]] | by intros [k [=]]].
    + split; [by intros [body [=]] | by intros [k [=]]].
  - rewrite mapM_result_Forall. rewrite Forall_forall in Hshape.
    rewrite !Forall_forall. split; intros Hall d Hd.
    + intros e He. specialize (Hall d Hd).
      apply sanitize_Return_iff in Hall. by rewrite He in Hall.
    + apply sanitize_Return_iff.
      destruct (Hshape d Hd) as [-> | [-> | [e He]]]; [done | done |].
      rewrite He. by apply (Hall d Hd).
Qed.

(** X6. The records are masked in the order fetched and the first one on
    which [mask] raises ends the request: the detail of the 500 is the text
    of that exception, whatever records follow. *)
Theorem X6_recent_detail_of_first_failure {S} (A : Adapter S)
    (limit : option Z) (s : S) (l1 l2 : list doc) (d : doc) (e : exn) :
  get_documents A (lit "waitlist") ∅ (default 5 limit) s
    = Return (l1 ++ d :: l2) →
  Forall (λ d', ∃ m, mask (dict_get d' (lit "email") VNone) = Return m) l1 →
  mask (dict_get d (lit "email") VNone) = Raise e →
  get_recent_waitlist A limit s = RaisesHTTP 500 (exn_str e).
Proof.
  intros Hfetch Hl1 Hd.
  assert (Hm : mapM sanitize (l1 ++ d :: l2) = Raise e).
  { apply mapM_result_Raise. exists l1, d, l2. split_and!; [done | |].
    - by apply sanitize_Raise.
    - eapply Forall_impl; [exact Hl1|]. intros d' [m Hm]. simpl.
      unfold sanitize. rewrite Hm. simpl. eauto. }
  unfold get_recent_waitlist, get_recent_waitlist_try.
  rewrite Hfetch. simpl. by rewrite Hm.
Qed.

(** ** [test_database] *)

Lemma env_status_Set (environ : gmap str str) (key : str) :
  (env_status environ key = VStr ([check_mark] ++ lit " Set")
     ↔ ∃ v, environ !! key = Some v ∧ v ≠ [])
  ∧ (env_status environ key = VStr ([cross_mark] ++ lit " Not Set")
       ↔ environ !! key = None ∨ environ !! key = Some []).
Proof.
  unfold env_status, getenv.
  destruct (environ !! key) as [[|c v]|]; simpl.
  - split; split; [discriminate | by intros (v & [= <-] & ?) | eauto | done].
  - split; split; [eauto | done | discriminate | by intros [|]].
  - split; split; [discriminate | by intros (v & [=] & ?) | eauto | done].
Qed.


(** X8. In the status object of [GET /test] the fields [database_url] and
    [database_name] only tell whether the environment variables
    [DATABASE_URL] and [DATABASE_NAME] are set to a non-empty text: the
    values written from the handle before are always replaced, and a
    variable set to the empty string counts as not set. *)
Theorem X8_test_database_environment {S} (A : Adapter S)
    (environ : gmap str str) (s : S) (r : status) :
  test_database A environ s = Returns r →
  (database_url r = VStr ([check_mark] ++ lit " Set")
     ↔ ∃ v, environ !! lit "DATABASE_URL" = Some v ∧ v ≠ [])
  ∧ (database_url r = VStr ([cross_mark] ++ lit " Not Set")
       ↔ environ !! lit "DATABASE_URL" = None
         ∨ environ !! lit "DATABASE_URL" = Some [])
  ∧ (database_name r = VStr ([check_mark] ++ lit " Set")
       ↔ ∃ v, environ !! lit "DATABASE_NAME" = Some v ∧ v ≠ [])
  ∧ (database_name r = VStr ([cross_mark] ++ lit " Not Set")
       ↔ environ !! lit "DATABASE_NAME" = None
         ∨ environ !! lit "DATABASE_NAME" = Some []).
Proof.
  intros Hr.
  destruct (test_database_cases A environ s)
    as [(e & h & Heq & _) | (db_msg & conn & cs & Heq & _)]; [congruence|].
  rewrite Heq in Hr. injection Hr as <-. simpl.
  destruct (env_status_Set environ (lit "DATABASE_URL")) as [H1 H2].
  destruct (env_status_Set environ (lit "DATABASE_NAME")) as [H3 H4].
  done.
Qed.

(** X9. The [database] message of [GET /test] has at most 75 characters,
    however long the text of the error it reports. *)
Theorem X9_test_database_message_bound {S} (A : Adapter S)
    (environ : gmap str str) (s : S) (r : status) :
  test_database A environ s = Returns r →
  (length (database r) ≤ 75)%nat.
Proof.
  intros Hr.
  destruct (test_database_cases A environ s)
    as [(e & h & Heq & _) | (db_msg & conn & cs & Heq & Hcases)]; [congruence|].
  rewrite Heq in Hr. injection Hr as <-. simpl.
  destruct Hcases as [(_ & -> & _) | [(h & e & _ & _ & -> & _)
    | [(h & e & _ & _ & _ & _ & -> & _) | (h & names & _ & _ & _ & _ & -> & _)]]].
  - vm_compute. lia.
  - rewrite !length_app, length_take.
    change (length [cross_mark]) with 1%nat.
    change (length (lit " Error: ")) with 8%nat. lia.
  - rewrite !length_app, length_take.
    change (length warning_sign) with 2%nat.
    change (length (lit "  Connected but Error: ")) with 23%nat. lia.
  - vm_compute. lia.
Qed.

(** X10. [connection_status] is "Connected" exactly when the handle is set
    and reading its name did not raise, and "Not Connected" otherwise: it
    stays "Connected" when the listing of the collections fails. *)
Theorem X10_test_database_connection_status {S} (A : Adapter S)
    (environ : gmap str str) (s : S) (r : status) :
  test_database A environ s = Returns r →
  (connection_status r = lit "Connected"
     ↔ ∃ h, db A = Some h ∧ ∀ e, db_name h ≠ AttrRaises e)
  ∧ (connection_status r = lit "Connected"
     ∨ connection_status r = lit "Not Connected").
Proof.
  intros Hr.
  destruct (test_database_cases A environ s)
    as [(e & h & Heq & _) | (db_msg & conn & cs & Heq & Hcases)]; [congruence|].
  rewrite Heq in Hr. injection Hr as <-. simpl.
  destruct Hcases as [(Hdb & _ & -> & _) | [(h & e & Hdb & Hattr & _ & -> & _)
    | [(h & e & Hdb & Hattr & _ & _ & _ & -> & _)
    | (h & names & Hdb & Hattr & _ & _ & _ & -> & _)]]].
  - split; [|by right]. split; [discriminate|].
    intros (h & Hh & _). congruence.
  - split; [|by right]. split; [discriminate|].
    intros (h' & Hh & Hno). rewrite Hdb in Hh. injection Hh as <-.
    by destruct (Hno e).
  - split; [|by left]. split; [eauto | done].
  - split; [|by left]. split; [eauto | done].
Qed.

(** ** The further properties at sample requests *)

Lemma X1_witness :
  head (lit "@x.com") = Some at_sign
  ∧ ∃ e, mask (VStr (lit "@x.com")) = Raise e.
Proof.
  assert (H : head (lit "@x.com") = Some at_sign) by reflexivity.
  split; [done|].
  exact (proj2 (proj1 (X1_mask_raises_exactly (lit "@x.com"))) H).
Defined.

Lemma X2_witness :
  mask (VStr (lit "alice@x.com")) = Return (lit "a***e@x.com")
  ∧ mask (VStr (lit "a***e@x.com")) = Return (lit "a***e@x.com").
Proof.
  assert (H : mask (VStr (lit "alice@x.com")) = Return (lit "a***e@x.com"))
    by reflexivity.
  split; [done|].
  exact (X2_mask_idempotent (VStr (lit "alice@x.com")) (lit "a***e@x.com") H).
Defined.

Lemma X3_witness :
  ((at_sign ∉ lit "a")
   ∧ mask (VStr (lit "a" ++ [at_sign] ++ lit "x.com")) = Return (lit "a*@x.com"))
  ∧ length (lit "a*@x.com") = 8%nat
  ∧ drop 2 (lit "a*@x.com") = lit "@x.com".
Proof.
  assert (H1 : at_sign ∉ lit "a")
    by (apply (bool_decide_unpack (at_sign ∉ lit "a")); by vm_compute).
  assert (H2 : mask (VStr (lit "a" ++ [at_sign] ++ lit "x.com"))
                 = Return (lit "a*@x.com")) by reflexivity.
  split; [done|].
  exact (X3_mask_length (lit "a") (lit "x.com") (lit "a*@x.com") H1 H2).
Defined.

Lemma X4_witness :
  ((at_sign ∉ lit "a") ∧ (at_sign ∉ lit "ab")
   ∧ head (lit "a") = head (lit "ab")
   ∧ (length (lit "a") ≤ 2)%nat ∧ (length (lit "ab") ≤ 2)%nat)
  ∧ mask (VStr (lit "a" ++ [at_sign] ++ lit "x.com"))
    = mask (VStr (lit "ab" ++ [at_sign] ++ lit "x.com")).
Proof.
  assert (H1 : at_sign ∉ lit "a")
    by (apply (bool_decide_unpack (at_sign ∉ lit "a")); by vm_compute).
  assert (H2 : at_sign ∉ lit "ab")
    by (apply (bool_decide_unpack (at_sign ∉ lit "ab")); by vm_compute).
  assert (H3 : head (lit "a") = head (lit "ab")) by reflexivity.
  assert (H4 : (length (lit "a") ≤ 2)%nat) by (vm_compute; lia).
  assert (H5 : (length (lit "ab") ≤ 2)%nat) by (vm_compute; lia).
  split; [done|].
  exact (X4_mask_hides_local_part (lit "a") (lit "ab") (lit "x.com")
           H1 H2 H3 (or_introl (conj H4 H5))).
Defined.

Lemma X5_witness :
  get_documents samples.live (lit "waitlist") ∅ 5 samples.legacy
    = Return [samples.nameless_doc; samples.nomail_doc; samples.plain_doc]
  ∧ ∃ body, get_recent_waitlist samples.live None samples.legacy = Returns body.
Proof.
  assert (H1 : get_documents samples.live (lit "waitlist") ∅ 5 samples.legacy
                 = Return [samples.nameless_doc; samples.nomail_doc;
                           samples.plain_doc]) by (by vm_compute).
  assert (E1 : samples.nameless_doc !! lit "email" = Some (VStr (lit "a@x.com")))
    by (by vm_compute).
  assert (E2 : samples.nomail_doc !! lit "email" = None) by (by vm_compute).
  assert (E3 : samples.plain_doc !! lit "email"
                 = Some (VStr (lit "plain.example.com"))) by (by vm_compute).
  split; [done|].
  apply (proj2 (X5_recent_returns_iff_all_maskable samples.live None
                  samples.legacy _ H1
                  (Forall_cons_2 _ _ _ (or_intror (or_intror (ex_intro _ _ E1)))
                     (Forall_cons_2 _ _ _ (or_introl E2)
                        (Forall_cons_2 _ _ _
                           (or_intror (or_intror (ex_intro _ _ E3)))
                           (Forall_nil_2 _)))))).
  repeat apply Forall_cons_2; [| | |apply Forall_nil_2].
  - intros e He. rewrite E1 in He. injection He as <-. by vm_compute.
  - intros e He. by rewrite E2 in He.
  - intros e He. rewrite E3 in He. injection He as <-. by vm_compute.
Defined.

Lemma X6_witness :
  (get_documents samples.live (lit "waitlist") ∅ 5 samples.with_nobody
     = Return ([samples.alice_doc] ++ samples.nobody_doc :: [samples.bob_doc])
   ∧ mask (dict_get samples.alice_doc (lit "email") VNone)
     = Return (lit "a***e@example.com")
   ∧ mask (dict_get samples.nobody_doc (lit "email") VNone)
     = Raise IndexError_string)
  ∧ get_recent_waitlist samples.live None samples.with_nobody
    = RaisesHTTP 500 (exn_str IndexError_string).
Proof.
  assert (H1 : get_documents samples.live (lit "waitlist") ∅ 5 samples.with_nobody
                 = Return ([samples.alice_doc] ++ samples.nobody_doc
                             :: [samples.bob_doc])) by (by vm_compute).
  assert (H2 : mask (dict_get samples.alice_doc (lit "email") VNone)
                 = Return (lit "a***e@example.com")) by (by vm_compute).
  assert (H3 : mask (dict_get samples.nobody_doc (lit "email") VNone)
                 = Raise IndexError_string) by (by vm_compute).
  split; [done|].
  apply (X6_recent_detail_of_first_failure samples.live None samples.with_nobody
           [samples.alice_doc] [samples.bob_doc] samples.nobody_doc
           IndexError_string H1); [|exact H3].
  apply Forall_cons_2; [|apply Forall_nil_2]. eauto.
Defined.


Lemma X8_witness :
  (test_database samples.down samples.blank_environ ()
     = Returns samples.down_status
   ∧ samples.blank_environ !! lit "DATABASE_NAME" = Some [])
  ∧ database_name samples.down_status = VStr ([cross_mark] ++ lit " Not Set").
Proof.
  assert (H1 : test_database samples.down samples.blank_environ ()
                 = Returns samples.down_status) by (by vm_compute).
  assert (H2 : samples.blank_environ !! lit "DATABASE_NAME" = Some [])
    by (by vm_compute).
  split; [done|].
  destruct (X8_test_database_environment samples.down samples.blank_environ ()
              samples.down_status H1) as (_ & _ & _ & Hname).
  apply Hname. by right.
Defined.

Lemma X9_witness :
  test_database samples.down samples.blank_environ ()
    = Returns samples.down_status
  ∧ (length (exn_str samples.timeout) = 92
     ∧ length (database samples.down_status) ≤ 75)%nat.
Proof.
  assert (H : test_database samples.down samples.blank_environ ()
                = Returns samples.down_status) by (by vm_compute).
  split; [done|]. split; [reflexivity|].
  exact (X9_test_database_message_bound samples.down samples.blank_environ ()
           samples.down_status H).
Defined.

Lemma X10_witness :
  (test_database samples.down samples.blank_environ ()
     = Returns samples.down_status
   ∧ db samples.down = Some samples.down_handle
   ∧ (∀ e, db_name samples.down_handle ≠ AttrRaises e))
  ∧ connection_status samples.down_status = lit "Connected".
Proof.
  assert (H1 : test_database samples.down samples.blank_environ ()
                 = Returns samples.down_status) by (by vm_compute).
  assert (H2 : ∀ e, db_name samples.down_handle ≠ AttrRaises e) by done.
  split; [done|].
  apply (proj1 (X10_test_database_connection_status samples.down
                  samples.blank_environ () samples.down_status H1)).
  exists samples.down_handle. by split.
Defined.
